(** * AWClient: the user zone of aw-webui

    A shallow embedding of [aw-server/aw-webui/src/views/User.vue] (the
    [User] component: its data, its template and its two methods [init] and
    [submit]) together with the user store it drives.

    The component only sees the store through [useUserStore()]: five reactive
    fields and three asynchronous methods.  That interface is the class
    [Store.API] below, and what is proved of the component alone holds for
    any store that implements it.  The file [~/stores/user] itself is
    described by the specification only; [Module IdentityStore] models it
    from there. *)

From Stdlib Require Import String Ascii List Bool Arith Lia FinFun.
Import ListNotations.
Open Scope string_scope.
Open Scope list_scope.

(* ------------------------------------------------------------------ *)
(** * The remote identity service (external collaborator) *)

Module Remote.

(** The authoritative record the service answers with. *)
Record IdentityRecord := {
  id : string;
  displayName : string;
  createdAt : string
}.

Inductive ErrorKind := TransportError | ValidationError | ConflictError.

(** [GET /identity], [POST /identity] with [{id, displayName}],
    [PUT /identity/{id}] with [{displayName}]. *)
Inductive Request :=
| GET_identity
| POST_identity (id displayName : string)
| PUT_identity (id displayName : string).

Inductive Response :=
| Authoritative (r : IdentityRecord)
| NotFound
| Failure (kind : ErrorKind) (text : string).

Definition is_mutation (req : Request) : bool :=
  match req with
  | GET_identity => false
  | POST_identity _ _ | PUT_identity _ _ => true
  end.


End Remote.

(* ------------------------------------------------------------------ *)
(** * What the component uses of the store *)

Module Store.

(** The three asynchronous methods, with the argument object the component
    passes ([{username: this.username}]). *)
Inductive Call :=
| ensureLoaded
| register (username : string)
| update (username : string).

(** How an awaited promise ends.  A fulfilled store call may carry the
    displayable message of a failure it caught. *)
Inductive Settlement :=
| Fulfilled (failure : option string)
| Rejected (reason : string).

(** A call runs synchronously up to its network boundary: either it settles
    without touching the network, or it has sent one request and is
    suspended on the answer. *)
Inductive Started (St : Type) :=
| Settled (st : St) (o : Settlement)
| Suspended (st : St) (req : Remote.Request).
Arguments Settled {St} st o.
Arguments Suspended {St} st req.

Class API (St : Type) := {
  (** [useUserStore()] at the start of a session *)
  fresh : St;
  (** reactive fields read by the template and the methods *)
  uuid : St -> string;
  username : St -> string;
  created : St -> string;
  isExistOnServer : St -> bool;
  _loaded : St -> bool;
  (** writes a [v-model] on a store field would perform *)
  set_uuid : string -> St -> St;
  set_created : string -> St -> St;
  (** the methods: up to the network boundary, and from the answer on *)
  start : Call -> St -> Started St;
  resume : Call -> Remote.Response -> St -> St * Settlement
}.

Definition is_mutation (c : Call) : bool :=
  match c with
  | ensureLoaded => false
  | register _ | update _ => true
  end.

(** The store once the synchronous part of a call is over. *)
Definition state_after {St : Type} (s : Started St) : St :=
  match s with
  | Settled st _ => st
  | Suspended st _ => st
  end.

(** The request a call has put on the wire, if any. *)
Definition request_of {St : Type} (s : Started St) : option Remote.Request :=
  match s with
  | Settled _ _ => None
  | Suspended _ req => Some req
  end.

(** The call ended in a failure: a message was handed back, or the promise
    was rejected. *)
Definition failed (o : Settlement) : bool :=
  match o with
  | Fulfilled None => false
  | Fulfilled (Some _) | Rejected _ => true
  end.

End Store.

(* ------------------------------------------------------------------ *)
(** * The [User] component *)

Module User.

(** [data()]: [error] and [username]; [userStore] is the handle on the store
    singleton and lives in the page. *)
Record Data := {
  error : string;
  username : string
}.

(** The asynchronous method suspended at an [await]. *)
Inductive Frame := init_frame | submit_frame.

(** A request on the wire, the store call that sent it and the method of the
    component awaiting that call. *)
Record Pending := {
  request : Remote.Request;
  call : Store.Call;
  frame : Frame
}.

(** What the page does that is visible from outside. *)
Inductive Effect :=
| Called (c : Store.Call)
| Sent (req : Remote.Request)
| Reload
| Unhandled (reason : string).

Record Page (St : Type) := {
  data : Data;
  userStore : St;
  pending : list Pending;
  effects : list Effect;
  alive : bool
}.
Arguments data {St} p.
Arguments userStore {St} p.
Arguments pending {St} p.
Arguments effects {St} p.
Arguments alive {St} p.
Arguments Build_Page {St} data userStore pending effects alive.

(** ** The template *)

(** Targets of [v-model]. *)
Inductive Model := m_username | m_userStore_uuid | m_userStore_created.

Inductive Node :=
| alert (text : string)
| input (label : string) (v_model : Model) (disabled : bool)
| button (label : string).

(** JavaScript truthiness of a string, as [v-if="error"] tests it. *)
Definition truthy (s : string) : bool :=
  match s with
  | EmptyString => false
  | String _ _ => true
  end.

Definition Model_eqb (a b : Model) : bool :=
  match a, b with
  | m_username, m_username => true
  | m_userStore_uuid, m_userStore_uuid => true
  | m_userStore_created, m_userStore_created => true
  | _, _ => false
  end.

Definition is_button (l : string) (n : Node) : bool :=
  match n with
  | button l' => String.eqb l l'
  | _ => false
  end.

Definition is_enabled_input (m : Model) (n : Node) : bool :=
  match n with
  | input _ m' disabled => Model_eqb m m' && negb disabled
  | _ => false
  end.

Definition is_alert (n : Node) : bool :=
  match n with
  | alert _ => true
  | _ => false
  end.

Fixpoint remove_nth {A : Type} (n : nat) (l : list A) : list A :=
  match l, n with
  | [], _ => []
  | _ :: t, O => t
  | x :: t, S k => x :: remove_nth k t
  end.

(** User and network events reaching the page. *)
Inductive Event :=
| mounted
| typed (m : Model) (text : string)
| clicked (label : string)
| replied (n : nat) (r : Remote.Response).

Definition is_typed (e : Event) : bool :=
  match e with
  | typed _ _ => true
  | _ => false
  end.

Definition is_sent_mutation (e : Effect) : bool :=
  match e with
  | Sent req => Remote.is_mutation req
  | _ => false
  end.

Definition is_outstanding_mutation (q : Pending) : bool :=
  Remote.is_mutation (request q).


Section Component.
Context {St : Type} {store : Store.API St}.

(** The three blocks of the template, in order: the alert, the form of an
    identity that exists on the server, the registration form.  Static
    markup (the heading, the rules, the info icon and its text) is left
    out. *)
Definition render (d : Data) (st : St) : list Node :=
  (if truthy (error d) then [alert (error d)] else [])
  ++ (if Store.isExistOnServer st && Store._loaded st
      then [input "Username" m_username false;
            input "UUID" m_userStore_uuid true;
            input "Created" m_userStore_created true;
            button "Submit"]
      else [])
  ++ (if negb (Store.isExistOnServer st) && Store._loaded st
      then [input "Username" m_username false;
            input "UUID" m_userStore_uuid true;
            button "Register"]
      else []).

Definition view (p : Page St) : list Node := render (data p) (userStore p).

Definition log (e : Effect) (p : Page St) : Page St :=
  Build_Page (data p) (userStore p) (pending p) (effects p ++ [e]) (alive p).

Definition with_store (st : St) (p : Page St) : Page St :=
  Build_Page (data p) st (pending p) (effects p) (alive p).

Definition with_pending (q : list Pending) (p : Page St) : Page St :=
  Build_Page (data p) (userStore p) q (effects p) (alive p).

Definition set_username (u : string) (p : Page St) : Page St :=
  Build_Page {| error := error (data p); username := u |}
             (userStore p) (pending p) (effects p) (alive p).

(** [window.location.reload()]: the page and everything it holds is gone. *)
Definition reload (p : Page St) : Page St :=
  Build_Page (data p) (userStore p) (pending p) (effects p ++ [Reload]) false.

(** [init] after [await this.userStore.ensureLoaded()]. *)
Definition init_resume (o : Store.Settlement) (p : Page St) : Page St :=
  match o with
  | Store.Fulfilled _ => set_username (Store.username (userStore p)) p
  | Store.Rejected why => log (Unhandled why) p
  end.

(** [submit] after [await this.userStore.register(..)] or [update(..)]. *)
Definition submit_resume (o : Store.Settlement) (p : Page St) : Page St :=
  match o with
  | Store.Fulfilled _ => reload p
  | Store.Rejected why => log (Unhandled why) p
  end.

Definition resume_frame (f : Frame) : Store.Settlement -> Page St -> Page St :=
  match f with
  | init_frame => init_resume
  | submit_frame => submit_resume
  end.

(** [await this.userStore.<c>(..)] inside the method [f]. *)
Definition await (c : Store.Call) (f : Frame) (p : Page St) : Page St :=
  let p := log (Called c) p in
  match Store.start c (userStore p) with
  | Store.Settled st o => resume_frame f o (with_store st p)
  | Store.Suspended st req =>
      log (Sent req)
          (with_pending (pending p ++ [{| request := req; call := c; frame := f |}])
                        (with_store st p))
  end.

Definition init (p : Page St) : Page St := await Store.ensureLoaded init_frame p.

Definition submit (p : Page St) : Page St :=
  if negb (Store.isExistOnServer (userStore p))
  then await (Store.register (username (data p))) submit_frame p
  else await (Store.update (username (data p))) submit_frame p.

(** The write a [v-model] performs on its target. *)
Definition v_model_write (m : Model) (text : string) (p : Page St) : Page St :=
  match m with
  | m_username => set_username text p
  | m_userStore_uuid => with_store (Store.set_uuid text (userStore p)) p
  | m_userStore_created => with_store (Store.set_created text (userStore p)) p
  end.

(** The answer to the [n]-th request on the wire: the store call that sent it
    finishes, then the method of the component that awaited it goes on. *)
Definition deliver (n : nat) (r : Remote.Response) (p : Page St) : Page St :=
  match nth_error (pending p) n with
  | None => p
  | Some q =>
      let '(st, o) := Store.resume (call q) r (userStore p) in
      resume_frame (frame q) o
                   (with_pending (remove_nth n (pending p)) (with_store st p))
  end.

Definition step (p : Page St) (e : Event) : Page St :=
  if alive p then
    match e with
    | mounted => init p
    | typed m text =>
        if existsb (is_enabled_input m) (view p) then v_model_write m text p else p
    | clicked l =>
        if existsb (is_button l) (view p) then submit p else p
    | replied n r => deliver n r p
    end
  else p.

Definition run (p : Page St) (es : list Event) : Page St := fold_left step es p.

(** The page when the component is created. *)
Definition created : Page St :=
  Build_Page {| error := ""; username := "" |} Store.fresh [] [] true.

(** Register and update requests sent so far, and those still unanswered. *)
Definition sent_mutations (p : Page St) : nat :=
  length (filter is_sent_mutation (effects p)).

Definition outstanding_mutations (p : Page St) : nat :=
  length (filter is_outstanding_mutation (pending p)).

End Component.

End User.

(* ------------------------------------------------------------------ *)
(** * The user store *)

Module IdentityStore.

(** Modelled from the spec: the state of the store [~/stores/user], whose
    file is not part of the sources.  The five fields of the identity record
    (section 3) under the names the component reads them by ([uuid] is [id],
    [username] is [displayName], [created] is [createdAt], [isExistOnServer]
    is [existsRemotely], [_loaded] is [loaded]), the boolean in-flight guard
    of section 5, and how many identifiers the generator has handed out. *)
Record State := {
  uuid : string;
  username : string;
  created : string;
  isExistOnServer : bool;
  _loaded : bool;
  inFlight : bool;
  issued : nat
}.

(** Modelled from the spec: the identity record of section 3, the part of the
    store the specification calls the local state. *)
Record IdentityRecord := {
  id : string;
  displayName : string;
  createdAt : string;
  existsRemotely : bool;
  loaded : bool
}.

Definition identity (st : State) : IdentityRecord :=
  {| id := uuid st;
     displayName := username st;
     createdAt := created st;
     existsRemotely := isExistOnServer st;
     loaded := _loaded st |}.

(** Modelled from the spec: "constructed empty at application/session
    start". *)
Definition empty : State :=
  {| uuid := ""; username := ""; created := "";
     isExistOnServer := false; _loaded := false;
     inFlight := false; issued := 0 |}.

(** Modelled from the spec: a remote error "converted to a displayable
    message"; the server's text is surfaced verbatim. *)
Definition displayable (k : Remote.ErrorKind) (text : string) : string := text.

(** Modelled from the spec: the messages of the failures the store finds
    itself (a re-entrant call, a precondition that does not hold, an answer
    without a record); the specification fixes no wording. *)
Definition msg_in_flight : string := "another register or update is in flight".
Definition msg_precondition : string := "operation is not legal in this state".
Definition msg_no_record : string := "the server returned no record".

(** Modelled from the spec: the in-flight flag is "cleared in all exit
    paths". *)
Definition release (st : State) : State :=
  {| uuid := uuid st; username := username st; created := created st;
     isExistOnServer := isExistOnServer st; _loaded := _loaded st;
     inFlight := false; issued := issued st |}.

(** Modelled from the spec: [ensureLoaded()], section 4.1.  "If [loaded] is
    already true, is a no-op.  Otherwise issues a fetch against the remote
    identity service." *)
Definition ensureLoaded_start (st : State) : Store.Started State :=
  if _loaded st
  then Store.Settled st (Store.Fulfilled None)
  else Store.Suspended st Remote.GET_identity.

(** Modelled from the spec: the three resolutions of the fetch.  Found:
    populate [id], [displayName], [createdAt], set [existsRemotely] and
    [loaded].  Not found: [id] left as it is, [existsRemotely = false],
    [loaded = true].  Failure: nothing changes and the error is surfaced. *)
Definition ensureLoaded_resume (r : Remote.Response) (st : State)
  : State * Store.Settlement :=
  match r with
  | Remote.Authoritative rec =>
      ({| uuid := Remote.id rec; username := Remote.displayName rec;
          created := Remote.createdAt rec;
          isExistOnServer := true; _loaded := true;
          inFlight := inFlight st; issued := issued st |},
       Store.Fulfilled None)
  | Remote.NotFound =>
      ({| uuid := uuid st; username := username st; created := created st;
          isExistOnServer := false; _loaded := true;
          inFlight := inFlight st; issued := issued st |},
       Store.Fulfilled None)
  | Remote.Failure k text => (st, Store.Fulfilled (Some (displayable k text)))
  end.

(** Modelled from the spec: [register({displayName})], section 4.1.  A
    re-entrant call is rejected (section 5); the precondition [loaded] and
    not [existsRemotely] fails fast; otherwise a new identifier is generated
    and [{displayName, id}] goes to the create endpoint. *)
Definition register_start (generateId : nat -> string) (name : string) (st : State)
  : Store.Started State :=
  if inFlight st then Store.Settled st (Store.Fulfilled (Some msg_in_flight))
  else if _loaded st && negb (isExistOnServer st)
  then Store.Suspended
         {| uuid := uuid st; username := username st; created := created st;
            isExistOnServer := isExistOnServer st; _loaded := _loaded st;
            inFlight := true; issued := S (issued st) |}
         (Remote.POST_identity (generateId (issued st)) name)
  else Store.Settled st (Store.Fulfilled (Some msg_precondition)).

(** Modelled from the spec: "On success: local state updated to the
    authoritative record, [existsRemotely = true].  On failure: local state
    unchanged; error surfaced." *)
Definition register_resume (r : Remote.Response) (st : State)
  : State * Store.Settlement :=
  match r with
  | Remote.Authoritative rec =>
      ({| uuid := Remote.id rec; username := Remote.displayName rec;
          created := Remote.createdAt rec;
          isExistOnServer := true; _loaded := _loaded st;
          inFlight := false; issued := issued st |},
       Store.Fulfilled None)
  | Remote.NotFound => (release st, Store.Fulfilled (Some msg_no_record))
  | Remote.Failure k text => (release st, Store.Fulfilled (Some (displayable k text)))
  end.

(** Modelled from the spec: [update({displayName})], section 4.1: "submits
    [{id, displayName}] to the remote update endpoint, keyed by the existing
    immutable [id]", under the precondition [loaded] and [existsRemotely] and
    the same in-flight guard. *)
Definition update_start (name : string) (st : State) : Store.Started State :=
  if inFlight st then Store.Settled st (Store.Fulfilled (Some msg_in_flight))
  else if _loaded st && isExistOnServer st
  then Store.Suspended
         {| uuid := uuid st; username := username st; created := created st;
            isExistOnServer := isExistOnServer st; _loaded := _loaded st;
            inFlight := true; issued := issued st |}
         (Remote.PUT_identity (uuid st) name)
  else Store.Settled st (Store.Fulfilled (Some msg_precondition)).

(** Modelled from the spec: "On success: local [displayName] replaced by the
    authoritative response.  On failure: local state unchanged; error
    surfaced."  [update] never changes [id] or [createdAt]. *)
Definition update_resume (r : Remote.Response) (st : State)
  : State * Store.Settlement :=
  match r with
  | Remote.Authoritative rec =>
      ({| uuid := uuid st; username := Remote.displayName rec;
          created := created st;
          isExistOnServer := isExistOnServer st; _loaded := _loaded st;
          inFlight := false; issued := issued st |},
       Store.Fulfilled None)
  | Remote.NotFound => (release st, Store.Fulfilled (Some msg_no_record))
  | Remote.Failure k text => (release st, Store.Fulfilled (Some (displayable k text)))
  end.

Definition start (generateId : nat -> string) (c : Store.Call) (st : State)
  : Store.Started State :=
  match c with
  | Store.ensureLoaded => ensureLoaded_start st
  | Store.register name => register_start generateId name st
  | Store.update name => update_start name st
  end.

Definition resume (c : Store.Call) (r : Remote.Response) (st : State)
  : State * Store.Settlement :=
  match c with
  | Store.ensureLoaded => ensureLoaded_resume r st
  | Store.register _ => register_resume r st
  | Store.update _ => update_resume r st
  end.

Definition set_uuid (text : string) (st : State) : State :=
  {| uuid := text; username := username st; created := created st;
     isExistOnServer := isExistOnServer st; _loaded := _loaded st;
     inFlight := inFlight st; issued := issued st |}.

Definition set_created (text : string) (st : State) : State :=
  {| uuid := uuid st; username := username st; created := text;
     isExistOnServer := isExistOnServer st; _loaded := _loaded st;
     inFlight := inFlight st; issued := issued st |}.

(** The store as the component sees it, for a given identifier generator. *)
Definition api (generateId : nat -> string) : Store.API State :=
  {| Store.fresh := empty;
     Store.uuid := uuid;
     Store.username := username;
     Store.created := created;
     Store.isExistOnServer := isExistOnServer;
     Store._loaded := _loaded;
     Store.set_uuid := set_uuid;
     Store.set_created := set_created;
     Store.start := start generateId;
     Store.resume := resume |}.

(** A whole call when nothing else interleaves: up to the network boundary,
    then from the answer [r] on. *)
Definition perform (generateId : nat -> string) (c : Store.Call)
  (r : Remote.Response) (st : State) : State * Store.Settlement :=
  match start generateId c st with
  | Store.Settled st' o => (st', o)
  | Store.Suspended st' _ => resume c r st'
  end.

(** The requests a run of calls puts on the wire, when the calls are made
    one after another and each gets the answer paired with it. *)
Fixpoint requests (generateId : nat -> string)
  (cs : list (Store.Call * Remote.Response)) (st : State)
  : list Remote.Request :=
  match cs with
  | [] => []
  | (c, r) :: cs' =>
      match Store.request_of (start generateId c st) with
      | Some req => req :: requests generateId cs' (fst (perform generateId c r st))
      | None => requests generateId cs' (fst (perform generateId c r st))
      end
  end.

(** The identifiers of the create requests among some requests, in order. *)
Fixpoint posted_ids (l : list Remote.Request) : list string :=
  match l with
  | [] => []
  | Remote.POST_identity i _ :: t => i :: posted_ids t
  | _ :: t => posted_ids t
  end.

(** The generator of the examples: identifier number [n] is "u" written
    [n + 1] times. *)
Fixpoint unary (n : nat) : string :=
  match n with
  | O => "u"
  | S k => String "u"%char (unary k)
  end.

End IdentityStore.

(* ------------------------------------------------------------------ *)
(** * The component over the user store: invariants of a session *)

Module Session.

(** What the requests on the wire and the in-flight guard have to do with
    each other: a pending entry is a register or update request exactly when
    a register or update call sent it, and there is one such entry when the
    guard is up, none when it is down. *)
Definition guarded (p : User.Page IdentityStore.State) : Prop :=
  Forall (fun q => Remote.is_mutation (User.request q)
                   = Store.is_mutation (User.call q))
         (User.pending p)
  /\ User.outstanding_mutations p
     = (if IdentityStore.inFlight (User.userStore p) then 1 else 0).

End Session.

(* ------------------------------------------------------------------ *)
(** * Sessions used as examples *)

Module Scenario.

Definition store : Store.API IdentityStore.State :=
  IdentityStore.api IdentityStore.unary.

Definition alice : Remote.IdentityRecord :=
  {| Remote.id := "u-123"; Remote.displayName := "alice";
     Remote.createdAt := "T0" |}.

Definition alice2 : Remote.IdentityRecord :=
  {| Remote.id := "u-123"; Remote.displayName := "alice2";
     Remote.createdAt := "T0" |}.

(** The page is opened and the server knows no identity. *)
Definition absent : list User.Event :=
  [User.mounted; User.replied 0 Remote.NotFound].

(** The page is opened and the server answers with alice's record. *)
Definition present : list User.Event :=
  [User.mounted; User.replied 0 (Remote.Authoritative alice)].

(** Scenario A up to the click: no identity, the user types a name and
    presses Register. *)
Definition registering : list User.Event :=
  absent ++ [User.typed User.m_username "alice"; User.clicked "Register"].

(** Scenario B up to the click: the user renames alice and presses Submit. *)
Definition updating : list User.Event :=
  present ++ [User.typed User.m_username "alice2"; User.clicked "Submit"].

Definition page (es : list User.Event) : User.Page IdentityStore.State :=
  User.run (store := store) (User.created (store := store)) es.

(** The store after a successful load of alice's record. *)
Definition alice_loaded : IdentityStore.State :=
  {| IdentityStore.uuid := "u-123"; IdentityStore.username := "alice";
     IdentityStore.created := "T0";
     IdentityStore.isExistOnServer := true; IdentityStore._loaded := true;
     IdentityStore.inFlight := false; IdentityStore.issued := 0 |}.

(** The store after a load that found nothing. *)
Definition nobody_loaded : IdentityStore.State :=
  {| IdentityStore.uuid := ""; IdentityStore.username := "";
     IdentityStore.created := "";
     IdentityStore.isExistOnServer := false; IdentityStore._loaded := true;
     IdentityStore.inFlight := false; IdentityStore.issued := 0 |}.

(** A store that answers every call at once and successfully, to exercise
    the path of an [await] that does not suspend. *)
Definition cached : Store.API IdentityStore.State :=
  {| Store.fresh := alice_loaded;
     Store.uuid := IdentityStore.uuid;
     Store.username := IdentityStore.username;
     Store.created := IdentityStore.created;
     Store.isExistOnServer := IdentityStore.isExistOnServer;
     Store._loaded := IdentityStore._loaded;
     Store.set_uuid := IdentityStore.set_uuid;
     Store.set_created := IdentityStore.set_created;
     Store.start := fun _ st => Store.Settled st (Store.Fulfilled None);
     Store.resume := fun _ _ st => (st, Store.Fulfilled None) |}.

End Scenario.

(* ------------------------------------------------------------------ *)
(** * Reading the log of a page *)

Module Log.

Definition is_called (e : User.Effect) : bool :=
  match e with
  | User.Called _ => true
  | _ => false
  end.

Definition is_mutation_call (e : User.Effect) : bool :=
  match e with
  | User.Called c => Store.is_mutation c
  | _ => false
  end.

Definition is_reload (e : User.Effect) : bool :=
  match e with
  | User.Reload => true
  | _ => false
  end.

Definition is_click (e : User.Event) : bool :=
  match e with
  | User.clicked _ => true
  | _ => false
  end.

(** How many times the store has been called. *)
Definition calls (l : list User.Effect) : nat := length (filter is_called l).

(** A page on which no click has had an effect yet: it is alive, only
    [init] can be waiting for an answer, and the log shows neither a reload
    nor a call of [register] or [update]. *)
Definition unclicked {St : Type} (p : User.Page St) : Prop :=
  User.alive p = true
  /\ Forall (fun q => User.frame q = User.init_frame) (User.pending p)
  /\ existsb is_reload (User.effects p) = false
  /\ existsb is_mutation_call (User.effects p) = false.

End Log.

(* ------------------------------------------------------------------ *)
(** * Properties of the component, for any store *)

Ltac page_fields :=
  unfold User.reload, User.log, User.set_username, User.with_pending,
    User.with_store;
  cbn [User.data User.userStore User.pending User.effects User.alive
       User.error User.username].

Section UserProperties.
Context {St : Type} {store : Store.API St}.
Import User.

(** ** What the template can show *)

Lemma view_unloaded (p : Page St) :
  Store._loaded (userStore p) = false ->
  view p = if truthy (error (data p)) then [alert (error (data p))] else [].
Proof.
  intros Hl. unfold view, render. rewrite Hl, !andb_false_r.
  now rewrite !app_nil_r.
Qed.

Lemma store_inputs_disabled (d : Data) (st : St) (m : Model) :
  m <> m_username -> existsb (is_enabled_input m) (render d st) = false.
Proof.
  intros Hm. unfold render.
  rewrite !existsb_app.
  destruct (truthy (error d)), (Store.isExistOnServer st), (Store._loaded st);
    destruct m; try congruence; reflexivity.
Qed.

Lemma no_button_unloaded (p : Page St) (l : string) :
  Store._loaded (userStore p) = false -> existsb (is_button l) (view p) = false.
Proof.
  intros Hl. rewrite (view_unloaded p Hl).
  now destruct (truthy (error (data p))).
Qed.

(** ** Typing *)

Lemma typed_cases (p : Page St) (m : Model) (text : string) :
  step p (typed m text) = p \/ step p (typed m text) = set_username text p.
Proof.
  unfold step. destruct (alive p); [|now left].
  destruct m.
  - destruct (existsb _ _); [now right | now left].
  - unfold view. rewrite store_inputs_disabled by discriminate. now left.
  - unfold view. rewrite store_inputs_disabled by discriminate. now left.
Qed.

Lemma typed_frame (p : Page St) (m : Model) (text : string) :
  let p' := step p (typed m text) in
  userStore p' = userStore p /\ pending p' = pending p
  /\ effects p' = effects p /\ alive p' = alive p
  /\ error (data p') = error (data p).
Proof.
  cbv zeta. destruct (typed_cases p m text) as [-> | ->]; page_fields; auto.
Qed.

Lemma typing_frame (es : list Event) :
  forallb is_typed es = true ->
  forall p : Page St,
    userStore (run p es) = userStore p /\ pending (run p es) = pending p
    /\ effects (run p es) = effects p /\ alive (run p es) = alive p.
Proof.
  induction es as [|e es IH]; intros Hes p; [now cbn|].
  cbn in Hes. apply andb_prop in Hes as [He Hes].
  destruct e; try discriminate.
  cbn [run fold_left]. fold (run (step p (typed m text)) es).
  destruct (IH Hes (step p (typed m text))) as (-> & -> & -> & ->).
  destruct (typed_frame p m text) as (-> & -> & -> & -> & _). auto.
Qed.

(** ** The [error] field *)

Lemma resume_frame_error (f : Frame) (o : Store.Settlement) (p : Page St) :
  error (data (resume_frame f o p)) = error (data p).
Proof. destruct f, o; reflexivity. Qed.

Lemma await_error (c : Store.Call) (f : Frame) (p : Page St) :
  error (data (await c f p)) = error (data p).
Proof.
  unfold await. cbn [userStore log].
  destruct (Store.start c (userStore p)); [now rewrite resume_frame_error|reflexivity].
Qed.

Lemma step_error (p : Page St) (e : Event) :
  error (data (step p e)) = error (data p).
Proof.
  unfold step. destruct (alive p); [|reflexivity].
  destruct e.
  - apply await_error.
  - destruct (existsb _ _); [|reflexivity]. now destruct m.
  - destruct (existsb _ _); [|reflexivity].
    unfold submit. destruct (negb _); apply await_error.
  - unfold deliver. destruct (nth_error _ _); [|reflexivity].
    destruct (Store.resume _ _ _). now rewrite resume_frame_error.
Qed.

Lemma run_error (es : list Event) (p : Page St) :
  error (data (run p es)) = error (data p).
Proof.
  revert p. induction es as [|e es IH]; intros p; [reflexivity|].
  cbn [run fold_left]. fold (run (step p e) es).
  now rewrite IH, step_error.
Qed.

(** No history of events makes the alert appear: nothing ever assigns
    [this.error]. *)
Lemma alert_never_shown (es : list Event) :
  error (data (run created es)) = ""
  /\ existsb is_alert (view (run created es)) = false.
Proof.
  assert (He : error (data (run created es)) = "") by now rewrite run_error.
  split; [exact He|].
  unfold view, render. rewrite He. cbn [truthy app].
  rewrite existsb_app.
  destruct (Store.isExistOnServer _), (Store._loaded _); reflexivity.
Qed.

(** ** The two methods *)

Lemma await_settled (c : Store.Call) (f : Frame) (p : Page St) st o :
  Store.start c (userStore p) = Store.Settled st o ->
  await c f p = resume_frame f o (with_store st (log (Called c) p)).
Proof. unfold await. cbn [userStore log]. now intros ->. Qed.

Lemma await_suspended (c : Store.Call) (f : Frame) (p : Page St) st req :
  Store.start c (userStore p) = Store.Suspended st req ->
  await c f p =
  Build_Page (data p) st
             (pending p ++ [{| request := req; call := c; frame := f |}])
             (effects p ++ [Called c; Sent req]) (alive p).
Proof.
  unfold await. cbn [userStore log]. intros ->. page_fields.
  now rewrite <- app_assoc.
Qed.

Lemma await_calls (c : Store.Call) (f : Frame) (p : Page St) :
  exists rest, effects (await c f p) = effects p ++ Called c :: rest.
Proof.
  destruct (Store.start c (userStore p)) as [st o|st req] eqn:E.
  - rewrite (await_settled _ _ _ _ _ E).
    destruct f, o; page_fields; cbn [resume_frame init_resume submit_resume];
      page_fields.
    + now exists [].
    + exists [Unhandled reason]. now rewrite <- app_assoc.
    + exists [Reload]. now rewrite <- app_assoc.
    + exists [Unhandled reason]. now rewrite <- app_assoc.
  - rewrite (await_suspended _ _ _ _ _ E). cbn [effects]. now exists [Sent req].
Qed.

Lemma click_runs_submit (p : Page St) (l : string) :
  alive p = true -> existsb (is_button l) (view p) = true ->
  step p (clicked l) = submit p.
Proof. unfold step. now intros -> ->. Qed.

(** The component has no guard of its own: whenever a button is on a live
    page, a click calls the store, whatever is still on the wire. *)
Lemma click_always_calls_store (p : Page St) (l : string) :
  alive p = true -> existsb (is_button l) (view p) = true ->
  exists c rest, effects (step p (clicked l)) = effects p ++ Called c :: rest.
Proof.
  intros Ha Hb. rewrite (click_runs_submit p l Ha Hb). unfold submit.
  destruct (negb _); eexists; apply await_calls.
Qed.

(** C1.  Every run of [submit] makes exactly one call to the store, and
    that call is [register] exactly when the store's [isExistOnServer] is
    false in the page the submit runs in, [update] otherwise, with the
    component's [username] as argument.  Nothing else is called: the log
    grows by that call and by what follows from it alone (the request it
    sent, or the reload or the unhandled rejection once it has settled), the
    store is the one the call leaves, the only new pending entry is for that
    call, and the component's data are untouched.  The flag is the store's
    at that moment: the page is arbitrary, so nothing remembered from an
    earlier page (such as the one the form was opened in) takes part in the
    choice. *)
Theorem submit_routes_on_current_flag (p : Page St) :
  let c := if Store.isExistOnServer (userStore p)
           then Store.update (username (data p))
           else Store.register (username (data p)) in
  filter Log.is_called (effects (submit p))
  = filter Log.is_called (effects p) ++ [Called c]
  /\ effects (submit p)
     = effects p
       ++ Called c
       :: match Store.start c (userStore p) with
          | Store.Settled _ (Store.Fulfilled _) => [Reload]
          | Store.Settled _ (Store.Rejected why) => [Unhandled why]
          | Store.Suspended _ req => [Sent req]
          end
  /\ userStore (submit p) = Store.state_after (Store.start c (userStore p))
  /\ pending (submit p)
     = pending p
       ++ match Store.request_of (Store.start c (userStore p)) with
          | Some req => [{| request := req; call := c; frame := submit_frame |}]
          | None => []
          end
  /\ data (submit p) = data p.
Proof.
  cbv zeta. unfold submit.
  destruct (Store.isExistOnServer (userStore p)); cbn [negb];
    match goal with
    | |- context [Store.start ?c (userStore p)] =>
        destruct (Store.start c (userStore p)) as [st o|st req] eqn:E;
        [ rewrite (await_settled _ _ _ _ _ E);
          destruct o; cbn [resume_frame submit_resume]
        | rewrite (await_suspended _ _ _ _ _ E) ]
    end;
    page_fields; cbn [Store.state_after Store.request_of];
    rewrite <- ?app_assoc, ?app_nil_r; cbn [app];
    repeat split;
    rewrite filter_app; cbn [filter Log.is_called]; reflexivity.
Qed.

(** C7.  A submit whose [register] or [update] succeeds reloads the page,
    and the reload is the last thing the page does: whether the store call
    succeeds before reaching the network, or on the answer to its
    request. *)
Theorem successful_submit_reloads :
  (forall (p : Page St) (st : St),
      let c := if Store.isExistOnServer (userStore p)
               then Store.update (username (data p))
               else Store.register (username (data p)) in
      Store.start c (userStore p) = Store.Settled st (Store.Fulfilled None) ->
      effects (submit p) = effects p ++ [Called c; Reload]
      /\ alive (submit p) = false)
  /\ (forall (p : Page St) (n : nat) (q : Pending) (r : Remote.Response) (st : St),
         alive p = true ->
         nth_error (pending p) n = Some q ->
         frame q = submit_frame ->
         Store.resume (call q) r (userStore p) = (st, Store.Fulfilled None) ->
         effects (step p (replied n r)) = effects p ++ [Reload]
         /\ alive (step p (replied n r)) = false).
Proof.
  split.
  - intros p st c E. unfold submit. subst c.
    destruct (Store.isExistOnServer (userStore p)); cbn [negb];
      rewrite (await_settled _ _ _ _ _ E); cbn [resume_frame submit_resume];
      page_fields; now rewrite <- app_assoc.
  - intros p n q r st Ha Hq Hf E. unfold step, deliver.
    rewrite Ha, Hq, E, Hf. cbn [resume_frame submit_resume]. page_fields. auto.
Qed.

(** C8.  While the store's [_loaded] is false the template shows neither
    form: every node on the page is the alert, no button is there to click,
    and a click changes nothing. *)
Theorem no_mutation_action_before_loaded (p : Page St) :
  Store._loaded (userStore p) = false ->
  (forall n, In n (view p) -> is_alert n = true)
  /\ (forall l, existsb (is_button l) (view p) = false)
  /\ (forall l, step p (clicked l) = p).
Proof.
  intros Hl. repeat split.
  - intros n. rewrite (view_unloaded p Hl).
    destruct (truthy (error (data p))); cbn; [|tauto].
    now intros [<- | []].
  - intros l. now apply no_button_unloaded.
  - intros l. unfold step. rewrite (no_button_unloaded p l Hl).
    now destruct (alive p).
Qed.

(** C10.  When the awaited [ensureLoaded] is fulfilled, [init] copies the
    store's [username] into the component's own; typing into the page
    afterwards touches nothing but that copy: the store, the requests on the
    wire and the effects of the page stay as they are, for one keystroke and
    for any run of them. *)
Theorem username_is_a_local_copy :
  (forall (p : Page St) (st : St) v,
      Store.start Store.ensureLoaded (userStore p)
      = Store.Settled st (Store.Fulfilled v) ->
      userStore (init p) = st
      /\ username (data (init p)) = Store.username st)
  /\ (forall (p : Page St) (n : nat) (q : Pending) (r : Remote.Response) (st : St) v,
         alive p = true ->
         nth_error (pending p) n = Some q ->
         frame q = init_frame ->
         Store.resume (call q) r (userStore p) = (st, Store.Fulfilled v) ->
         userStore (step p (replied n r)) = st
         /\ username (data (step p (replied n r))) = Store.username st)
  /\ (forall (p : Page St) (m : Model) (text : string),
         let p' := step p (typed m text) in
         userStore p' = userStore p /\ pending p' = pending p
         /\ effects p' = effects p
         /\ (p' = p \/ username (data p') = text))
  /\ (forall (p : Page St) (es : list Event),
         forallb is_typed es = true ->
         userStore (run p es) = userStore p /\ pending (run p es) = pending p
         /\ effects (run p es) = effects p).
Proof.
  split; [|split; [|split]].
  - intros p st v E. unfold init. rewrite (await_settled _ _ _ _ _ E).
    split; reflexivity.
  - intros p n q r st v Ha Hq Hf E. unfold step, deliver.
    rewrite Ha, Hq, E, Hf. split; reflexivity.
  - intros p m text. cbv zeta.
    destruct (typed_frame p m text) as (Hs & Hp & He & _).
    repeat split; auto.
    destruct (typed_cases p m text) as [-> | ->]; [now left|now right].
  - intros p es Hes.
    destruct (typing_frame es Hes p) as (Hs & Hp & He & _). auto.
Qed.

End UserProperties.

(* ------------------------------------------------------------------ *)
(** * Properties of the store, and of the component on top of it *)

Section ListFacts.
Context {A : Type} (f : A -> bool).

Lemma count_snoc (l : list A) (x : A) :
  length (filter f (l ++ [x])) = length (filter f l) + (if f x then 1 else 0).
Proof.
  rewrite filter_app, length_app. cbn [filter]. now destruct (f x).
Qed.

Lemma count_remove_nth (l : list A) :
  forall (n : nat) (x : A),
    nth_error l n = Some x ->
    length (filter f l)
    = (if f x then 1 else 0) + length (filter f (User.remove_nth n l)).
Proof.
  induction l as [|y l IH]; intros [|n] x Hx; cbn in Hx; try discriminate.
  - injection Hx as ->. cbn [filter User.remove_nth].
    now destruct (f x).
  - specialize (IH n x Hx). cbn [filter User.remove_nth].
    destruct (f y), (f x); cbn [length] in *; lia.
Qed.

End ListFacts.

Section IdentityStoreProperties.
Variable generateId : nat -> string.
Import User.

Import IdentityStore (State, inFlight).
Import Session.

(** Throughout this section the store behind the component is
    [IdentityStore.api generateId]. *)
#[local] Hint Extern 0 (Store.API _) =>
  exact (IdentityStore.api generateId) : typeclass_instances.


(** ** The in-flight guard *)

Lemma start_settled (c : Store.Call) (st st' : State) o :
  IdentityStore.start generateId c st = Store.Settled st' o -> st' = st.
Proof.
  destruct c; cbn [IdentityStore.start];
    unfold IdentityStore.ensureLoaded_start, IdentityStore.register_start,
      IdentityStore.update_start;
    repeat match goal with |- context [if ?b then _ else _] => destruct b end;
    intros E; now inversion E.
Qed.

Lemma start_suspended (c : Store.Call) (st st' : State) req :
  IdentityStore.start generateId c st = Store.Suspended st' req ->
  Remote.is_mutation req = Store.is_mutation c
  /\ inFlight st' = (Store.is_mutation c || inFlight st)
  /\ (Store.is_mutation c = true -> inFlight st = false)
  /\ IdentityStore.identity st' = IdentityStore.identity st.
Proof.
  destruct c; cbn [IdentityStore.start];
    unfold IdentityStore.ensureLoaded_start, IdentityStore.register_start,
      IdentityStore.update_start;
    destruct (inFlight st) eqn:Ef;
    repeat match goal with |- context [if ?b then _ else _] => destruct b end;
    intros E; inversion E; subst; cbn; rewrite ?Ef; auto.
Qed.

Lemma resume_inFlight (c : Store.Call) (r : Remote.Response) (st : State) :
  inFlight (fst (IdentityStore.resume c r st))
  = (negb (Store.is_mutation c) && inFlight st).
Proof. destruct c, r; reflexivity. Qed.

Lemma resume_frame_guarded (f : Frame) o (p : Page State) :
  guarded p -> guarded (resume_frame f o p).
Proof. destruct f, o; exact (fun G => G). Qed.

Lemma await_guarded (c : Store.Call) (f : Frame) (p : Page State) :
  guarded p -> guarded (await c f p).
Proof.
  intros [Gc Gn].
  destruct (Store.start c (userStore p)) as [st o|st req] eqn:E.
  - rewrite (await_settled _ _ _ _ _ E). apply resume_frame_guarded.
    apply start_settled in E. subst st. split; assumption.
  - rewrite (await_suspended _ _ _ _ _ E).
    destruct (start_suspended _ _ _ _ E) as (Hm & Hf & H0 & _).
    split; unfold outstanding_mutations in *; cbn [pending userStore] in *.
    + apply Forall_app. split; [assumption|]. now repeat constructor.
    + rewrite count_snoc, Gn, Hf. unfold is_outstanding_mutation.
      cbn [request]. rewrite Hm.
      destruct (Store.is_mutation c); cbn [orb]; [now rewrite H0|].
      destruct (inFlight (userStore p)); reflexivity.
Qed.

Lemma deliver_guarded (n : nat) (r : Remote.Response) (p : Page State) :
  guarded p -> guarded (deliver n r p).
Proof.
  intros [Gc Gn]. unfold deliver.
  destruct (nth_error (pending p) n) as [q|] eqn:Hq; [|now split].
  destruct (Store.resume (call q) r (userStore p)) as [st o] eqn:E.
  apply resume_frame_guarded.
  assert (Hf := resume_inFlight (call q) r (userStore p)).
  change (Store.resume (call q) r (userStore p))
    with (IdentityStore.resume (call q) r (userStore p)) in E.
  rewrite E in Hf. cbn [fst] in Hf.
  assert (Hc : Remote.is_mutation (request q) = Store.is_mutation (call q)).
  { rewrite Forall_forall in Gc. apply Gc. eapply nth_error_In; eassumption. }
  unfold outstanding_mutations in *.
  rewrite (count_remove_nth is_outstanding_mutation _ _ _ Hq) in Gn.
  unfold is_outstanding_mutation at 1 in Gn. rewrite Hc in Gn.
  split; unfold outstanding_mutations; page_fields.
  - rewrite Forall_forall in *. intros x Hx. apply Gc.
    clear - Hx. revert n Hx.
    induction (pending p) as [|y l IH]; intros [|n] Hx; cbn in *; auto.
    destruct Hx as [-> | Hx]; eauto.
  - rewrite Hf.
    destruct (Store.is_mutation (call q)), (inFlight (userStore p));
      cbn [negb andb] in *; lia.
Qed.

Lemma step_guarded (p : Page State) (e : Event) :
  guarded p -> guarded (step p e).
Proof.
  intros G. destruct e.
  - unfold step. destruct (alive p); [now apply await_guarded|assumption].
  - destruct (typed_cases p m text) as [-> | ->]; exact G.
  - unfold step. destruct (alive p); [|assumption].
    destruct (existsb _ _); [|assumption].
    unfold submit. destruct (negb _); now apply await_guarded.
  - unfold step. destruct (alive p); [now apply deliver_guarded|assumption].
Qed.

Lemma run_guarded (es : list Event) (p : Page State) :
  guarded p -> guarded (run p es).
Proof.
  revert p. induction es as [|e es IH]; intros p G; [assumption|].
  cbn [run fold_left]. apply IH. now apply step_guarded.
Qed.

Lemma created_guarded : guarded (created).
Proof. split; [constructor|reflexivity]. Qed.

(** ** Requests sent *)

Lemma sent_resume_frame (f : Frame) o (p : Page State) :
  sent_mutations (resume_frame f o p) = sent_mutations p
  /\ userStore (resume_frame f o p) = userStore p.
Proof.
  destruct f, o; cbn [resume_frame init_resume submit_resume];
    unfold sent_mutations; page_fields; rewrite ?count_snoc; cbn; auto.
Qed.

Lemma sent_await (c : Store.Call) (f : Frame) (p : Page State) :
  sent_mutations (await c f p) = sent_mutations p
  \/ (inFlight (userStore p) = false
      /\ inFlight (userStore (await c f p)) = true
      /\ sent_mutations (await c f p) = S (sent_mutations p)).
Proof.
  destruct (Store.start c (userStore p)) as [st o|st req] eqn:E.
  - left. rewrite (await_settled _ _ _ _ _ E).
    destruct (sent_resume_frame f o (with_store st (log (Called c) p))) as [-> _].
    unfold sent_mutations. page_fields. rewrite count_snoc. cbn. lia.
  - rewrite (await_suspended _ _ _ _ _ E).
    destruct (start_suspended _ _ _ _ E) as (Hm & Hf & H0 & _).
    unfold sent_mutations. cbn [effects userStore].
    change [Called c; Sent req] with ([Called c] ++ [Sent req]).
    rewrite app_assoc, !count_snoc. cbn [is_sent_mutation]. rewrite Hm.
    destruct (Store.is_mutation c); cbn [orb] in *.
    + right. rewrite Hf, H0 by reflexivity. repeat split. lia.
    + left. lia.
Qed.

Lemma sent_step (p : Page State) (e : Event) :
  sent_mutations (step p e) = sent_mutations p
  \/ (inFlight (userStore p) = false
      /\ inFlight (userStore (step p e)) = true
      /\ sent_mutations (step p e) = S (sent_mutations p)).
Proof.
  destruct e.
  - unfold step. destruct (alive p); [apply sent_await|now left].
  - left. unfold sent_mutations.
    now destruct (typed_frame p m text) as (_ & _ & -> & _).
  - unfold step. destruct (alive p); [|now left].
    destruct (existsb _ _); [|now left].
    unfold submit. destruct (negb _); apply sent_await.
  - left. unfold step. destruct (alive p); [|reflexivity].
    unfold deliver. destruct (nth_error _ _) as [q|]; [|reflexivity].
    destruct (Store.resume _ _ _) as [st o].
    now destruct (sent_resume_frame (frame q) o
                    (with_pending (remove_nth n (pending p)) (with_store st p)))
      as [-> _].
Qed.

(** C2.  In every session of the component over the store, at most one
    register or update request is unanswered at any time; while one is, no
    event makes the page send another; and two clicks in a row send at most
    one.  The component itself calls the store on every click: it is the
    store's in-flight guard that turns the second call down. *)
Theorem at_most_one_outstanding_mutation :
  (forall es, outstanding_mutations (run created es) <= 1)
  /\ (forall es e,
         outstanding_mutations (run created es) = 1 ->
         sent_mutations (step (run created es) e)
         = sent_mutations (run created es))
  /\ (forall es l1 l2,
         sent_mutations (run created (es ++ [clicked l1; clicked l2]))
         <= S (sent_mutations (run created es))).
Proof.
  split; [|split].
  - intros es. destruct (run_guarded es created created_guarded) as [_ ->].
    destruct (inFlight _); lia.
  - intros es e Hn.
    destruct (run_guarded es created created_guarded) as [_ G].
    rewrite G in Hn.
    destruct (sent_step (run created es) e) as [E | (Hf & _)]; [exact E|].
    rewrite Hf in Hn. discriminate.
  - intros es l1 l2. unfold run. rewrite fold_left_app. cbn [fold_left].
    fold (run created es). set (p := run created es).
    destruct (sent_step p (clicked l1)) as [E1 | (_ & Hf & E1)];
      destruct (sent_step (step p (clicked l1)) (clicked l2))
        as [E2 | (Hf' & _ & E2)]; try lia.
    rewrite Hf in Hf'. discriminate.
Qed.

(** ** Failures *)

Lemma resume_failed (c : Store.Call) (r : Remote.Response) (st : State) :
  Store.failed (snd (IdentityStore.resume c r st)) = true ->
  IdentityStore.identity (fst (IdentityStore.resume c r st))
  = IdentityStore.identity st.
Proof. destruct c, r; cbn; intros E; try discriminate; reflexivity. Qed.

Lemma start_identity (c : Store.Call) (st : State) :
  IdentityStore.identity (Store.state_after (IdentityStore.start generateId c st))
  = IdentityStore.identity st.
Proof.
  destruct (IdentityStore.start generateId c st) as [st' o|st' req] eqn:E;
    cbn [Store.state_after].
  - now rewrite (start_settled _ _ _ _ E).
  - now destruct (start_suspended _ _ _ _ E) as (_ & _ & _ & ->).
Qed.

(** C4.  Whenever [ensureLoaded], [register] or [update] ends in a failure,
    the identity record is what it was before the call: for a whole call,
    for the part of a call that runs on the answer (whatever happened to the
    store in between), and before the answer, when no call changes the
    record at all.  Every error answer of the server is such a failure. *)
Theorem failure_leaves_identity_unchanged :
  (forall c r st,
      Store.failed (snd (IdentityStore.perform generateId c r st)) = true ->
      IdentityStore.identity (fst (IdentityStore.perform generateId c r st))
      = IdentityStore.identity st)
  /\ (forall c r st,
         Store.failed (snd (IdentityStore.resume c r st)) = true ->
         IdentityStore.identity (fst (IdentityStore.resume c r st))
         = IdentityStore.identity st)
  /\ (forall c st,
         IdentityStore.identity
           (Store.state_after (IdentityStore.start generateId c st))
         = IdentityStore.identity st)
  /\ (forall c kind text st,
         snd (IdentityStore.resume c (Remote.Failure kind text) st)
         = Store.Fulfilled (Some (IdentityStore.displayable kind text))
         /\ IdentityStore.identity
              (fst (IdentityStore.resume c (Remote.Failure kind text) st))
            = IdentityStore.identity st).
Proof.
  split; [|split; [|split]].
  - intros c r st. unfold IdentityStore.perform.
    pose proof (start_identity c st) as Hs.
    destruct (IdentityStore.start generateId c st) as [st' o|st' req];
      cbn [Store.state_after fst snd] in *.
    + now intros _.
    + intros Hf. now rewrite (resume_failed _ _ _ Hf).
  - exact resume_failed.
  - exact start_identity.
  - intros c kind text st. now destruct c.
Qed.

(** ** Loading *)





(** ** Update *)

(** C6.  A successful [update] leaves [uuid] and [created] (and the two
    flags) as they were and takes [username] from the answer, whether one
    looks at the whole call or at the part that runs on the answer; its
    request is keyed by the [uuid] the store already holds.  On the page, the
    inputs bound to the store's [uuid] and [created] are never enabled, and
    no keystroke changes either field; the update branch of [submit] hands
    the store the component's [username] and nothing else. *)
Theorem update_keeps_uuid_and_created :
  (forall name r st,
      snd (IdentityStore.perform generateId (Store.update name) r st)
      = Store.Fulfilled None ->
      let st' := fst (IdentityStore.perform generateId (Store.update name) r st) in
      IdentityStore.uuid st' = IdentityStore.uuid st
      /\ IdentityStore.created st' = IdentityStore.created st
      /\ IdentityStore.isExistOnServer st' = IdentityStore.isExistOnServer st
      /\ IdentityStore._loaded st' = IdentityStore._loaded st
      /\ exists rec, r = Remote.Authoritative rec
                     /\ IdentityStore.username st' = Remote.displayName rec)
  /\ (forall name r st,
         snd (IdentityStore.resume (Store.update name) r st)
         = Store.Fulfilled None ->
         let st' := fst (IdentityStore.resume (Store.update name) r st) in
         IdentityStore.uuid st' = IdentityStore.uuid st
         /\ IdentityStore.created st' = IdentityStore.created st)
  /\ (forall name st req,
         Store.request_of (IdentityStore.start generateId (Store.update name) st)
         = Some req ->
         req = Remote.PUT_identity (IdentityStore.uuid st) name)
  /\ (forall d (st : State) m,
         m <> m_username -> existsb (is_enabled_input m) (render d st) = false)
  /\ (forall (p : Page State) m text,
         IdentityStore.uuid (userStore (step p (typed m text)))
         = IdentityStore.uuid (userStore p)
         /\ IdentityStore.created (userStore (step p (typed m text)))
            = IdentityStore.created (userStore p))
  /\ (forall p : Page State,
         IdentityStore.isExistOnServer (userStore p) = true ->
         exists rest,
           effects (submit p)
           = effects p ++ Called (Store.update (username (data p))) :: rest).
Proof.
  split; [|split; [|split; [|split; [|split]]]].
  - intros name r st. unfold IdentityStore.perform.
    cbn [IdentityStore.start IdentityStore.resume].
    unfold IdentityStore.update_start.
    destruct (inFlight st); [discriminate|].
    destruct (IdentityStore._loaded st && IdentityStore.isExistOnServer st);
      [|discriminate].
    destruct r as [rec| |k t]; cbn; try discriminate.
    intros _. repeat split. now exists rec.
  - intros name r st. destruct r; cbn; try discriminate. auto.
  - intros name st req. cbn [IdentityStore.start].
    unfold IdentityStore.update_start.
    destruct (inFlight st); [discriminate|].
    destruct (IdentityStore._loaded st && IdentityStore.isExistOnServer st);
      [|discriminate].
    cbn. now intros [= <-].
  - intros d st m. apply store_inputs_disabled.
  - intros p m text. now destruct (typed_frame p m text) as (-> & _).
  - intros p Hx. unfold submit.
    change (Store.isExistOnServer (userStore p))
      with (IdentityStore.isExistOnServer (userStore p)).
    rewrite Hx. apply await_calls.
Qed.

(** ** Register *)







End IdentityStoreProperties.

(* ------------------------------------------------------------------ *)
(** * The scenarios of the specification, run *)

Section Scenarios.
Import User.



(** Scenario A to its end: alice is registered, the store holds the
    server's record and the page has reloaded. *)
Example scenario_A :
  let p := Scenario.page
             (Scenario.registering ++ [replied 0 (Remote.Authoritative Scenario.alice)]) in
  IdentityStore.identity (userStore p)
  = {| IdentityStore.id := "u-123"; IdentityStore.displayName := "alice";
       IdentityStore.createdAt := "T0";
       IdentityStore.existsRemotely := true; IdentityStore.loaded := true |}
  /\ effects p
     = [Called Store.ensureLoaded; Sent Remote.GET_identity;
        Called (Store.register "alice"); Sent (Remote.POST_identity "u" "alice");
        Reload].
Proof. split; reflexivity. Qed.

(** Scenario B to its end: the update is keyed by alice's id and only her
    name changes. *)
Example scenario_B :
  let p := Scenario.page
             (Scenario.updating ++ [replied 0 (Remote.Authoritative Scenario.alice2)]) in
  IdentityStore.identity (userStore p)
  = {| IdentityStore.id := "u-123"; IdentityStore.displayName := "alice2";
       IdentityStore.createdAt := "T0";
       IdentityStore.existsRemotely := true; IdentityStore.loaded := true |}
  /\ effects p
     = [Called Store.ensureLoaded; Sent Remote.GET_identity;
        Called (Store.update "alice2"); Sent (Remote.PUT_identity "u-123" "alice2");
        Reload].
Proof. split; reflexivity. Qed.

(** The flag is read at submit time: the form of this page was opened while
    the store still said that no identity exists, the load then found alice,
    and the click is routed to [update]. *)
Example flag_read_at_submit_time :
  Store.isExistOnServer (API := Scenario.store) (userStore (Scenario.page [mounted]))
  = false
  /\ effects (Scenario.page Scenario.updating)
     = [Called Store.ensureLoaded; Sent Remote.GET_identity;
        Called (Store.update "alice2"); Sent (Remote.PUT_identity "u-123" "alice2")].
Proof. split; reflexivity. Qed.

(** C3, at a failing input.  Scenario A with a server that cannot be
    reached: the store does hand back a displayable message for the failed
    register, yet the component's [error] is still empty afterwards, the
    alert is not on the page, and the page has been reloaded. *)
Example failed_register_is_not_displayed :
  let failure := Remote.Failure Remote.TransportError "Network Error" in
  let before := Scenario.page Scenario.registering in
  let after := Scenario.page (Scenario.registering ++ [replied 0 failure]) in
  snd (IdentityStore.resume (Store.register "alice") failure (userStore before))
  = Store.Fulfilled (Some "Network Error")
  /\ error (data after) = ""
  /\ existsb is_alert (view (store := Scenario.store) after) = false
  /\ effects after = effects before ++ [Reload]
  /\ alive after = false.
Proof. cbv zeta. repeat split. Qed.

(** Scenario D, the whole log: both clicks call [register]; the first sends
    the create request, the second is turned down by the store and the page
    goes on to reload. *)
Example double_click_log :
  effects (Scenario.page (Scenario.registering ++ [clicked "Register"]))
  = [Called Store.ensureLoaded; Sent Remote.GET_identity;
     Called (Store.register "alice"); Sent (Remote.POST_identity "u" "alice");
     Called (Store.register "alice"); Reload].
Proof. reflexivity. Qed.

(** Scenario D: the second click on Register finds one create request
    unanswered and sends nothing. *)
Lemma second_click_sends_nothing :
  outstanding_mutations (Scenario.page Scenario.registering) = 1
  /\ sent_mutations
       (step (store := Scenario.store) (Scenario.page Scenario.registering)
             (clicked "Register"))
     = sent_mutations (Scenario.page Scenario.registering).
Proof.
  split; [reflexivity|].
  apply (proj1 (proj2 (at_most_one_outstanding_mutation IdentityStore.unary))
           Scenario.registering (clicked "Register")).
  reflexivity.
Defined.

(** Scenario C: a register turned down with a conflict leaves the identity
    record as the load left it. *)
Lemma conflict_leaves_identity_unchanged :
  let r := Remote.Failure Remote.ConflictError "identity exists" in
  let call := IdentityStore.perform IdentityStore.unary (Store.register "alice") r in
  Store.failed (snd (call Scenario.nobody_loaded)) = true
  /\ IdentityStore.identity (fst (call Scenario.nobody_loaded))
     = IdentityStore.identity Scenario.nobody_loaded.
Proof.
  cbv zeta. split; [reflexivity|].
  apply (proj1 (failure_leaves_identity_unchanged IdentityStore.unary)).
  reflexivity.
Defined.



(** Scenario B: renaming alice keeps her [uuid] and [created]. *)
Lemma renaming_alice_keeps_uuid_and_created :
  let call := IdentityStore.perform IdentityStore.unary (Store.update "alice2")
                (Remote.Authoritative Scenario.alice2) in
  snd (call Scenario.alice_loaded) = Store.Fulfilled None
  /\ IdentityStore.uuid (fst (call Scenario.alice_loaded)) = "u-123"
  /\ IdentityStore.created (fst (call Scenario.alice_loaded)) = "T0".
Proof.
  cbv zeta. split; [reflexivity|].
  pose proof (proj1 (update_keeps_uuid_and_created IdentityStore.unary)
                "alice2" (Remote.Authoritative Scenario.alice2)
                Scenario.alice_loaded eq_refl) as (Hu & Hc & _).
  split; [exact Hu|exact Hc].
Defined.

(** Scenario A, the answer to the create request: the page reloads.  With a
    store that answers at once, the click itself ends in the reload. *)
Lemma registering_alice_reloads :
  (let p := Scenario.page Scenario.registering in
   let r := Remote.Authoritative Scenario.alice in
   effects (step (store := Scenario.store) p (replied 0 r)) = effects p ++ [Reload]
   /\ alive (step (store := Scenario.store) p (replied 0 r)) = false)
  /\ (let p := created (store := Scenario.cached) in
      effects (submit (store := Scenario.cached) p)
      = effects p ++ [Called (Store.update ""); Reload]
      /\ alive (submit (store := Scenario.cached) p) = false).
Proof.
  cbv zeta. split.
  - exact (proj2 (successful_submit_reloads (store := Scenario.store))
             (Scenario.page Scenario.registering) 0 _
             (Remote.Authoritative Scenario.alice) _
             eq_refl eq_refl eq_refl eq_refl).
  - exact (proj1 (successful_submit_reloads (store := Scenario.cached))
             (created (store := Scenario.cached)) _ eq_refl).
Defined.

(** The page just opened, its load still on the wire: nothing but the alert
    could be on it, and a click on either button is lost. *)
Lemma unloaded_page_has_no_button :
  Store._loaded (API := Scenario.store) (userStore (Scenario.page [mounted])) = false
  /\ existsb (is_button "Register")
       (view (store := Scenario.store) (Scenario.page [mounted])) = false
  /\ step (store := Scenario.store) (Scenario.page [mounted]) (clicked "Submit")
     = Scenario.page [mounted].
Proof.
  split; [reflexivity|].
  pose proof (no_mutation_action_before_loaded (store := Scenario.store)
                (Scenario.page [mounted]) eq_refl) as (_ & Hb & Hc).
  split; [apply Hb|apply Hc].
Defined.

(** With a generator that repeats itself, two registrations carry the same
    identifier: the generator is what makes identifiers unique. *)
Example constant_generator_repeats :
  IdentityStore.posted_ids
    (IdentityStore.requests (fun _ => "same")
       [(Store.register "alice", Remote.Failure Remote.TransportError "");
        (Store.register "alice", Remote.Authoritative Scenario.alice)]
       Scenario.nobody_loaded)
  = ["same"; "same"].
Proof. reflexivity. Qed.


(** Scenario B: the answer to the load puts alice's name into the
    component's [username]; typing a new name afterwards leaves the store
    alone. *)
Lemma loading_alice_fills_username :
  (let p := Scenario.page [mounted] in
   let r := Remote.Authoritative Scenario.alice in
   userStore (step (store := Scenario.store) p (replied 0 r)) = Scenario.alice_loaded
   /\ username (data (step (store := Scenario.store) p (replied 0 r))) = "alice")
  /\ (let es := [typed m_username "al"; typed m_username "alice2"] in
      forallb is_typed es = true
      /\ userStore (run (store := Scenario.store) (Scenario.page Scenario.present) es)
         = Scenario.alice_loaded).
Proof.
  cbv zeta. split.
  - exact (proj1 (proj2 (username_is_a_local_copy (store := Scenario.store)))
             (Scenario.page [mounted]) 0 _ (Remote.Authoritative Scenario.alice)
             Scenario.alice_loaded None eq_refl eq_refl eq_refl eq_refl).
  - split; [reflexivity|].
    pose proof (proj2 (proj2 (proj2 (username_is_a_local_copy (store := Scenario.store))))
                  (Scenario.page Scenario.present)
                  [typed m_username "al"; typed m_username "alice2"] eq_refl)
      as (Hs & _).
    exact Hs.
Defined.

End Scenarios.

(* ------------------------------------------------------------------ *)
(** * More on the component: template, typing, clicks and reloads *)

Section UserBehaviour.
Context {St : Type} {store : Store.API St}.
Import User.

(** ** Which button is on the page *)

Lemma button_on_page (d : Data) (st : St) (l : string) :
  existsb (is_button l) (render d st)
  = Store._loaded st
    && String.eqb l (if Store.isExistOnServer st then "Submit" else "Register").
Proof.
  unfold render. rewrite !existsb_app.
  destruct (truthy (error d)), (Store.isExistOnServer st), (Store._loaded st);
    cbn [existsb is_button is_enabled_input andb orb negb app];
    rewrite ?orb_false_r; reflexivity.
Qed.

(** X1.  The two forms exclude each other and depend on nothing but the two
    flags of the store: a button labelled [l] is on the page exactly when
    [_loaded] holds and [l] is "Submit" for an identity that exists on the
    server, "Register" for one that does not. *)
Theorem button_shown_iff (p : Page St) (l : string) :
  existsb (is_button l) (view p)
  = Store._loaded (userStore p)
    && String.eqb l (if Store.isExistOnServer (userStore p)
                     then "Submit" else "Register").
Proof.
  unfold view, render. rewrite !existsb_app.
  destruct (truthy (error (data p))), (Store.isExistOnServer (userStore p)),
    (Store._loaded (userStore p));
    cbn [existsb is_button is_enabled_input andb orb negb app];
    rewrite ?orb_false_r; reflexivity.
Qed.

(** X2.  The label of a button and the branch [submit] takes agree: a click
    that lands on a button of a live page lands on "Register" or on
    "Submit", and calls [register] in the first case and [update] in the
    second, with the component's [username]. *)
Theorem click_calls_what_the_button_says (p : Page St) (l : string) :
  alive p = true ->
  existsb (is_button l) (view p) = true ->
  (l = "Register" \/ l = "Submit")
  /\ exists rest,
      effects (step p (clicked l))
      = effects p
        ++ Called (if String.eqb l "Register"
                   then Store.register (username (data p))
                   else Store.update (username (data p)))
        :: rest.
Proof.
  intros Ha Hb. rewrite (click_runs_submit p l Ha Hb).
  unfold view in Hb. rewrite button_on_page in Hb.
  apply andb_prop in Hb as [_ Hl]. apply String.eqb_eq in Hl. subst l.
  unfold submit.
  destruct (Store.isExistOnServer (userStore p)); cbn [negb String.eqb];
    (split; [auto|]); apply await_calls.
Qed.

(** ** Typing *)

Lemma username_input_enabled (d : Data) (st : St) :
  existsb (is_enabled_input m_username) (render d st) = Store._loaded st.
Proof.
  unfold render. rewrite !existsb_app.
  destruct (truthy (error d)), (Store.isExistOnServer st), (Store._loaded st);
    reflexivity.
Qed.

Lemma typed_step (p : Page St) (m : Model) (text : string) :
  step p (typed m text)
  = if alive p && Store._loaded (userStore p) && Model_eqb m m_username
    then set_username text p else p.
Proof.
  unfold step. destruct (alive p); [|reflexivity]. cbn [andb].
  destruct m; unfold view.
  - rewrite username_input_enabled.
    now destruct (Store._loaded (userStore p)).
  - rewrite store_inputs_disabled by discriminate.
    now destruct (Store._loaded (userStore p)).
  - rewrite store_inputs_disabled by discriminate.
    now destruct (Store._loaded (userStore p)).
Qed.

(** X3.  A keystroke takes effect exactly on a live page whose store is
    loaded and only in the Username input, in either form: it then replaces
    the component's [username] by the text; in every other case the page is
    left as it is. *)
Theorem typing_takes_effect_iff (p : Page St) (m : Model) (text : string) :
  step p (typed m text)
  = if alive p && Store._loaded (userStore p) && Model_eqb m m_username
    then set_username text p else p.
Proof.
  unfold step. destruct (alive p); [|reflexivity]. cbn [andb].
  destruct (Store._loaded (userStore p)) eqn:Hl; cbn [andb].
  - destruct m; unfold view.
    + now rewrite username_input_enabled, Hl.
    + now rewrite store_inputs_disabled by discriminate.
    + now rewrite store_inputs_disabled by discriminate.
  - assert (Hv : forall n, In n (view p) -> is_enabled_input m n = false).
    { intros n. rewrite (view_unloaded p Hl).
      destruct (truthy (error (data p))); cbn; [|tauto].
      now intros [<- | []]. }
    destruct (existsb (is_enabled_input m) (view p)) eqn:Ex; [|reflexivity].
    apply existsb_exists in Ex as (n & Hn & En).
    rewrite (Hv n Hn) in En. discriminate.
Qed.

(** X4.  What is sent is what was typed: on a live page whose store is
    loaded, typing a name and clicking the button that is on the page calls
    the store with exactly that name. *)
Theorem typed_name_is_submitted (p : Page St) (text : string) :
  alive p = true ->
  Store._loaded (userStore p) = true ->
  exists rest,
    effects (run p [typed m_username text;
                    clicked (if Store.isExistOnServer (userStore p)
                             then "Submit" else "Register")])
    = effects p
      ++ Called ((if Store.isExistOnServer (userStore p)
                  then Store.update else Store.register) text)
      :: rest.
Proof.
  intros Ha Hl. cbn [run fold_left].
  rewrite typed_step, Ha, Hl. cbn [andb Model_eqb].
  rewrite click_runs_submit.
  - unfold submit. page_fields.
    destruct (Store.isExistOnServer (userStore p)); cbn [negb];
      apply (await_calls _ _ (set_username text p)).
  - exact Ha.
  - unfold view. rewrite button_on_page. page_fields. rewrite Hl.
    now destruct (Store.isExistOnServer (userStore p)).
Qed.

(** ** Store calls *)

Lemma calls_resume_frame (f : Frame) o (p : Page St) :
  Log.calls (effects (resume_frame f o p)) = Log.calls (effects p).
Proof.
  unfold Log.calls.
  destruct f, o; cbn [resume_frame init_resume submit_resume]; page_fields;
    rewrite ?count_snoc; cbn [Log.is_called]; lia.
Qed.

Lemma calls_await (c : Store.Call) (f : Frame) (p : Page St) :
  Log.calls (effects (await c f p)) = S (Log.calls (effects p)).
Proof.
  destruct (Store.start c (userStore p)) as [st o|st req] eqn:E.
  - rewrite (await_settled _ _ _ _ _ E), calls_resume_frame.
    unfold Log.calls. page_fields. rewrite count_snoc. cbn [Log.is_called]. lia.
  - rewrite (await_suspended _ _ _ _ _ E). unfold Log.calls. cbn [effects].
    change [Called c; Sent req] with ([Called c] ++ [Sent req]).
    rewrite app_assoc, !count_snoc. cbn [Log.is_called]. lia.
Qed.

(** X5.  One store call per action and none otherwise: opening a live page
    calls the store once, a click on a button of a live page calls it once
    (whatever is still unanswered), and neither a keystroke nor an answer
    from the network calls it at all. *)
Theorem one_store_call_per_action :
  (forall p : Page St,
      alive p = true ->
      Log.calls (effects (step p mounted)) = S (Log.calls (effects p)))
  /\ (forall (p : Page St) l,
         alive p = true ->
         existsb (is_button l) (view p) = true ->
         Log.calls (effects (step p (clicked l))) = S (Log.calls (effects p)))
  /\ (forall (p : Page St) m text,
         Log.calls (effects (step p (typed m text))) = Log.calls (effects p))
  /\ (forall (p : Page St) n r,
         Log.calls (effects (step p (replied n r))) = Log.calls (effects p)).
Proof.
  split; [|split; [|split]].
  - intros p Ha. unfold step. rewrite Ha. apply calls_await.
  - intros p l Ha Hb. rewrite (click_runs_submit p l Ha Hb).
    unfold submit. destruct (negb _); apply calls_await.
  - intros p m text.
    now destruct (typed_frame p m text) as (_ & _ & -> & _).
  - intros p n r. unfold step. destruct (alive p); [|reflexivity].
    unfold deliver. destruct (nth_error _ _) as [q|]; [|reflexivity].
    destruct (Store.resume _ _ _) as [st o].
    now rewrite calls_resume_frame.
Qed.

(** ** Pages nobody has clicked on *)

Lemma Forall_remove_nth {A : Type} (P : A -> Prop) (l : list A) :
  Forall P l -> forall n, Forall P (remove_nth n l).
Proof.
  induction 1 as [|x l Hx Hl IH]; intros [|n]; cbn [remove_nth]; auto.
Qed.

Lemma unclicked_init_resume o (p : Page St) :
  Log.unclicked p -> Log.unclicked (init_resume o p).
Proof.
  intros (Ha & Hp & Hr & Hm). destruct o; cbn [init_resume].
  - repeat split; assumption.
  - repeat split; page_fields; auto;
      rewrite existsb_app; cbn; now rewrite ?Hr, ?Hm.
Qed.

Lemma unclicked_init (p : Page St) :
  Log.unclicked p -> Log.unclicked (init p).
Proof.
  intros (Ha & Hp & Hr & Hm). unfold init.
  destruct (Store.start Store.ensureLoaded (userStore p)) as [st o|st req] eqn:E.
  - rewrite (await_settled _ _ _ _ _ E). apply unclicked_init_resume.
    repeat split; page_fields; auto;
      rewrite existsb_app; cbn; now rewrite ?Hr, ?Hm.
  - rewrite (await_suspended _ _ _ _ _ E).
    repeat split; cbn [alive pending effects]; auto.
    + apply Forall_app. split; [assumption|]. now repeat constructor.
    + rewrite existsb_app; cbn; now rewrite Hr.
    + rewrite existsb_app; cbn; now rewrite Hm.
Qed.

Lemma unclicked_step (p : Page St) (e : Event) :
  Log.is_click e = false -> Log.unclicked p -> Log.unclicked (step p e).
Proof.
  intros He U. destruct e; try discriminate.
  - unfold step. destruct (alive p); [now apply unclicked_init|assumption].
  - destruct (typed_cases p m text) as [-> | ->]; exact U.
  - unfold step. destruct (alive p); [|assumption].
    unfold deliver. destruct (nth_error (pending p) n) as [q|] eqn:Hq;
      [|assumption].
    destruct (Store.resume _ _ _) as [st o].
    destruct U as (Ha & Hp & Hr & Hm).
    assert (Hf : frame q = init_frame).
    { rewrite Forall_forall in Hp. apply Hp.
      eapply nth_error_In; eassumption. }
    rewrite Hf. cbn [resume_frame]. apply unclicked_init_resume.
    repeat split; page_fields; auto. now apply Forall_remove_nth.
Qed.

Lemma unclicked_run (es : list Event) :
  existsb Log.is_click es = false ->
  forall p : Page St, Log.unclicked p -> Log.unclicked (run p es).
Proof.
  induction es as [|e es IH]; intros Hes p U; [assumption|].
  cbn [existsb] in Hes. apply orb_false_elim in Hes as [He Hes].
  cbn [run fold_left]. apply (IH Hes). now apply unclicked_step.
Qed.

(** X6.  Only a click can reload the page or reach [register] or [update]:
    in a session made of page openings, keystrokes and answers from the
    network, in any number and order, the page stays alive, never reloads
    and never calls either method. *)
Theorem no_click_no_reload (es : list Event) :
  existsb Log.is_click es = false ->
  alive (run created es) = true
  /\ existsb Log.is_reload (effects (run created es)) = false
  /\ existsb Log.is_mutation_call (effects (run created es)) = false.
Proof.
  intros Hes.
  assert (U : Log.unclicked (created (St := St))).
  { repeat split. constructor. }
  destruct (unclicked_run es Hes created U) as (Ha & _ & Hr & Hm). auto.
Qed.

(** ** How a submit ends *)

(** X7.  Whether a submit reloads depends on one thing only, that the
    awaited store call is fulfilled; what the call hands back is never
    looked at.  Fulfilled, with or without a failure message: the page
    reloads.  Rejected: no reload, the page stays alive and the rejection is
    nobody's to handle.  In both cases the component's data stay as they
    were.  This holds when the call settles on the answer to its request and
    when it settles before sending any. *)
Theorem submit_reloads_iff_fulfilled :
  (forall (p : Page St) n q r st o,
      alive p = true ->
      nth_error (pending p) n = Some q ->
      frame q = submit_frame ->
      Store.resume (call q) r (userStore p) = (st, o) ->
      let p' := step p (replied n r) in
      userStore p' = st /\ data p' = data p
      /\ match o with
         | Store.Fulfilled _ =>
             effects p' = effects p ++ [Reload] /\ alive p' = false
         | Store.Rejected why =>
             effects p' = effects p ++ [Unhandled why] /\ alive p' = true
         end)
  /\ (forall (p : Page St) st o,
         alive p = true ->
         let c := if Store.isExistOnServer (userStore p)
                  then Store.update (username (data p))
                  else Store.register (username (data p)) in
         Store.start c (userStore p) = Store.Settled st o ->
         let p' := submit p in
         userStore p' = st /\ data p' = data p
         /\ match o with
            | Store.Fulfilled _ =>
                effects p' = effects p ++ [Called c; Reload] /\ alive p' = false
            | Store.Rejected why =>
                effects p' = effects p ++ [Called c; Unhandled why]
                /\ alive p' = true
            end).
Proof.
  split.
  - intros p n q r st o Ha Hq Hf E. cbv zeta. unfold step, deliver.
    rewrite Ha, Hq, E, Hf.
    destruct o; cbn [resume_frame submit_resume]; page_fields; auto.
  - intros p st o Ha c E. cbv zeta. unfold submit. subst c.
    destruct (Store.isExistOnServer (userStore p)); cbn [negb];
      rewrite (await_settled _ _ _ _ _ E);
      destruct o; cbn [resume_frame submit_resume]; page_fields;
      rewrite <- ?app_assoc; auto.
Qed.

End UserBehaviour.

(* ------------------------------------------------------------------ *)
(** * The same, on the sessions of the examples *)

Section BehaviourScenarios.
Import User.

(** On the page of somebody the server does not know, the button is
    Register and a click on it calls [register]. *)
Lemma clicking_register_calls_register :
  let p := Scenario.page Scenario.absent in
  alive p = true
  /\ existsb (is_button "Register") (view (store := Scenario.store) p) = true
  /\ exists rest,
      effects (step (store := Scenario.store) p (clicked "Register"))
      = effects p ++ Called (Store.register "") :: rest.
Proof.
  cbv zeta. split; [reflexivity|split; [reflexivity|]].
  exact (proj2 (click_calls_what_the_button_says (store := Scenario.store)
                  (Scenario.page Scenario.absent) "Register" eq_refl eq_refl)).
Defined.

(** On alice's page, typing a new name and pressing Submit calls [update]
    with the new name. *)
Lemma renaming_alice_submits_the_new_name :
  let p := Scenario.page Scenario.present in
  alive p = true
  /\ Store._loaded (API := Scenario.store) (userStore p) = true
  /\ exists rest,
      effects (run (store := Scenario.store) p
                 [typed m_username "alice2"; clicked "Submit"])
      = effects p ++ Called (Store.update "alice2") :: rest.
Proof.
  cbv zeta. split; [reflexivity|split; [reflexivity|]].
  exact (typed_name_is_submitted (store := Scenario.store)
           (Scenario.page Scenario.present) "alice2" eq_refl eq_refl).
Defined.

(** Scenario D counted: the second click calls the store once more, although
    the first create request is still unanswered; opening the page had
    called it once. *)
Lemma every_click_calls_the_store :
  (let p := Scenario.page Scenario.registering in
   alive p = true
   /\ existsb (is_button "Register") (view (store := Scenario.store) p) = true
   /\ outstanding_mutations p = 1
   /\ Log.calls (effects (step (store := Scenario.store) p (clicked "Register")))
      = S (Log.calls (effects p)))
  /\ (let p := created (store := Scenario.store) in
      alive p = true
      /\ Log.calls (effects (step (store := Scenario.store) p mounted))
         = S (Log.calls (effects p))).
Proof.
  cbv zeta. split.
  - split; [reflexivity|split; [reflexivity|split; [reflexivity|]]].
    exact (proj1 (proj2 (one_store_call_per_action (store := Scenario.store)))
             (Scenario.page Scenario.registering) "Register" eq_refl eq_refl).
  - split; [reflexivity|].
    exact (proj1 (one_store_call_per_action (store := Scenario.store))
             (created (store := Scenario.store)) eq_refl).
Defined.

(** Alice opens her page and edits her name without pressing the button:
    nothing is reloaded and neither [register] nor [update] is called. *)
Lemma editing_without_clicking_is_harmless :
  let es := Scenario.present
            ++ [typed m_username "al"; typed m_username "alice2"; mounted] in
  existsb Log.is_click es = false
  /\ alive (Scenario.page es) = true
  /\ existsb Log.is_reload (effects (Scenario.page es)) = false
  /\ existsb Log.is_mutation_call (effects (Scenario.page es)) = false.
Proof.
  cbv zeta. split; [reflexivity|].
  exact (no_click_no_reload (store := Scenario.store)
           (Scenario.present
            ++ [typed m_username "al"; typed m_username "alice2"; mounted])
           eq_refl).
Defined.

(** A register the server could not be reached for, and a register turned
    down by the store while another is unanswered: the store hands back a
    message both times, and both times the page reloads. *)
Lemma failed_submits_reload_too :
  (let p := Scenario.page Scenario.registering in
   let r := Remote.Failure Remote.TransportError "Network Error" in
   snd (Store.resume (API := Scenario.store) (Store.register "alice") r (userStore p))
   = Store.Fulfilled (Some "Network Error")
   /\ effects (step (store := Scenario.store) p (replied 0 r))
      = effects p ++ [Reload]
   /\ alive (step (store := Scenario.store) p (replied 0 r)) = false)
  /\ (let p := Scenario.page Scenario.registering in
      Store.start (API := Scenario.store) (Store.register "alice") (userStore p)
      = Store.Settled (userStore p)
          (Store.Fulfilled (Some IdentityStore.msg_in_flight))
      /\ effects (submit (store := Scenario.store) p)
         = effects p ++ [Called (Store.register "alice"); Reload]
      /\ alive (submit (store := Scenario.store) p) = false).
Proof.
  cbv zeta. split.
  - split; [reflexivity|].
    pose proof (proj1 (submit_reloads_iff_fulfilled (store := Scenario.store))
                  (Scenario.page Scenario.registering) 0 _
                  (Remote.Failure Remote.TransportError "Network Error")
                  _ _ eq_refl eq_refl eq_refl eq_refl) as (_ & _ & H).
    exact H.
  - split; [reflexivity|].
    pose proof (proj2 (submit_reloads_iff_fulfilled (store := Scenario.store))
                  (Scenario.page Scenario.registering) _ _ eq_refl eq_refl)
      as (_ & _ & H).
    exact H.
Defined.

End BehaviourScenarios.
